(** * MetalTypes.h: the plain data structures shared by the CPU and GPU sides
    of the mesh-processing pipeline.

    The header declares four structures and nothing else: no function, no
    macro with a body, no validation.  The development below embeds

    - the scalar type [float] as its 32-bit pattern, so that equality of
      values is bit identity,
    - the struct declarations as Rocq records whose constructor takes the
      fields in declaration order,
    - the declarations themselves as a small table (field name, field type),
      so that field count, order and types can be stated,
    - assignment to one field ([v.confidence = c;]) as a functional update. *)

From Stdlib Require Import ZArith List String Bool Eqdep_dec Lia.
From Stdlib Require Import Floats.SpecFloat.
Import ListNotations.

Local Open Scope Z_scope.

(** ** The scalar type [float]

    A C [float] on the targets of this header is an IEEE-754 binary32 value.
    It is modelled by its bit pattern: an integer in [0, 2^32).  Two floats
    are equal here exactly when their 32 bits agree, which is finer than the
    C operator [==] (it separates +0 from -0 and one NaN payload from
    another). *)

Definition float_width : Z := 32.

Definition is_bits32 (n : Z) : bool := (0 <=? n) && (n <? 2 ^ float_width).

Record float : Type := mkfloat {
  float_bits : Z;
  float_bits_range : is_bits32 float_bits = true
}.

(** The three bit fields of binary32. *)
Definition float_sign (f : float) : bool := Z.testbit (float_bits f) 31.
Definition float_exponent (f : float) : Z :=
  Z.land (Z.shiftr (float_bits f) 23) 255.
Definition float_mantissa (f : float) : Z :=
  Z.land (float_bits f) (2 ^ 23 - 1).

(** The value a bit pattern stands for, as a [spec_float]. *)
Definition float_decode (f : float) : spec_float :=
  let s := float_sign f in
  let e := float_exponent f in
  let m := float_mantissa f in
  if e =? 255 then
    if m =? 0 then S754_infinity s else S754_nan
  else if e =? 0 then
    match m with
    | Zpos p => S754_finite s p (-149)
    | _ => S754_zero s
    end
  else
    match m + 2 ^ 23 with
    | Zpos p => S754_finite s p (e - 150)
    | _ => S754_nan
    end.

(** The C comparisons [a <= b] and [a < b] on floats: false as soon as one
    side is a NaN. *)
Definition float_le (a b : float) : bool :=
  SFleb (float_decode a) (float_decode b).
Definition float_lt (a b : float) : bool :=
  SFltb (float_decode a) (float_decode b).
Definition float_is_nan (a : float) : bool :=
  match float_decode a with S754_nan => true | _ => false end.

(** Some literals: [0.0f], [1.0f], [2.0f], [-1.0f] and a quiet NaN. *)
Definition float_zero : float := mkfloat 0x00000000 eq_refl.
Definition float_one : float := mkfloat 0x3F800000 eq_refl.
Definition float_two : float := mkfloat 0x40000000 eq_refl.
Definition float_minus_one : float := mkfloat 0xBF800000 eq_refl.
Definition float_qnan : float := mkfloat 0x7FC00000 eq_refl.

(** The range [0,1] that the comments of the pipeline expect of a
    confidence. *)
Definition float_in_unit (c : float) : bool :=
  float_le float_zero c && float_le c float_one.

(** ** The vector type [vector_float3] *)

(** Modelled from the spec: [vector_float3] is declared by [<simd/simd.h>],
    a platform header that is not among the sources.  The spec describes it
    as a 3-component float vector whose components are read as [.x], [.y]
    and [.z]. *)
Record vector_float3 : Type := mkvector_float3 {
  x : float;
  y : float;
  z : float
}.

(** ** The four structures of MetalTypes.h

    Each [typedef struct { ... } T;] becomes a record [T]; the constructor
    takes the fields in the order of the declaration, as the C initialiser
    [T v = { f1, f2, ... };] does. *)

Record MeshVertex : Type := mkMeshVertex {
  position : vector_float3;
  normal : vector_float3;
  confidence : float
}.

Record BoundingBox : Type := mkBoundingBox {
  min : vector_float3;
  max : vector_float3
}.

Record QualityMetrics : Type := mkQualityMetrics {
  pointDensity : float;
  surfaceCompleteness : float;
  noiseLevel : float;
  featurePreservation : float
}.

Record ProcessingParameters : Type := mkProcessingParameters {
  spatialSigma : float;
  rangeSigma : float;
  confidenceThreshold : float;
  featureWeight : float
}.

(** ** The declarations as data

    The same four declarations, read as tables: one row per field, with the
    field's name and its C type, in the order of the header. *)

Inductive ctype : Type :=
  | Tfloat
  | Tvector_float3.

Record field_decl : Type := mkfield {
  field_name : string;
  field_type : ctype
}.

Definition struct_decl : Type := list field_decl.

Local Open Scope string_scope.

Definition MeshVertex_decl : struct_decl :=
  [ mkfield "position" Tvector_float3;
    mkfield "normal" Tvector_float3;
    mkfield "confidence" Tfloat ].

Definition BoundingBox_decl : struct_decl :=
  [ mkfield "min" Tvector_float3;
    mkfield "max" Tvector_float3 ].

Definition QualityMetrics_decl : struct_decl :=
  [ mkfield "pointDensity" Tfloat;
    mkfield "surfaceCompleteness" Tfloat;
    mkfield "noiseLevel" Tfloat;
    mkfield "featurePreservation" Tfloat ].

Definition ProcessingParameters_decl : struct_decl :=
  [ mkfield "spatialSigma" Tfloat;
    mkfield "rangeSigma" Tfloat;
    mkfield "confidenceThreshold" Tfloat;
    mkfield "featureWeight" Tfloat ].

Local Close Scope string_scope.

(** The values of a C type, and the tuples of values a declaration asks
    for: one component per row, in order, closed by [unit]. *)
Definition ctype_denote (t : ctype) : Type :=
  match t with
  | Tfloat => float
  | Tvector_float3 => vector_float3
  end.

Fixpoint struct_denote (d : struct_decl) : Type :=
  match d with
  | [] => unit
  | f :: d' => (ctype_denote (field_type f) * struct_denote d')%type
  end.

(** Each record against its table: the fields of a value as such a tuple,
    and the value built from such a tuple. *)
Definition MeshVertex_fields (v : MeshVertex) : struct_denote MeshVertex_decl :=
  (position v, (normal v, (confidence v, tt))).

Definition MeshVertex_of_fields (t : struct_denote MeshVertex_decl) : MeshVertex :=
  let '(p, (n, (c, _))) := t in mkMeshVertex p n c.

Definition BoundingBox_fields (b : BoundingBox) : struct_denote BoundingBox_decl :=
  (min b, (max b, tt)).

Definition BoundingBox_of_fields (t : struct_denote BoundingBox_decl) : BoundingBox :=
  let '(lo, (hi, _)) := t in mkBoundingBox lo hi.

Definition QualityMetrics_fields (q : QualityMetrics)
  : struct_denote QualityMetrics_decl :=
  (pointDensity q, (surfaceCompleteness q, (noiseLevel q,
    (featurePreservation q, tt)))).

Definition QualityMetrics_of_fields (t : struct_denote QualityMetrics_decl)
  : QualityMetrics :=
  let '(d, (s, (n, (f, _)))) := t in mkQualityMetrics d s n f.

Definition ProcessingParameters_fields (p : ProcessingParameters)
  : struct_denote ProcessingParameters_decl :=
  (spatialSigma p, (rangeSigma p, (confidenceThreshold p,
    (featureWeight p, tt)))).

Definition ProcessingParameters_of_fields
  (t : struct_denote ProcessingParameters_decl) : ProcessingParameters :=
  let '(s, (r, (c, (w, _)))) := t in mkProcessingParameters s r c w.

(** ** Assignment to one field

    The header gives the structures no accessor functions: C code reads a
    field with [v.f] (the projections above) and writes it with [v.f = a;].
    The write is modelled as the function from the old value of the
    structure to the new one. *)

Definition set_position (a : vector_float3) (v : MeshVertex) : MeshVertex :=
  mkMeshVertex a (normal v) (confidence v).
Definition set_normal (a : vector_float3) (v : MeshVertex) : MeshVertex :=
  mkMeshVertex (position v) a (confidence v).
Definition set_confidence (a : float) (v : MeshVertex) : MeshVertex :=
  mkMeshVertex (position v) (normal v) a.

Definition set_min (a : vector_float3) (b : BoundingBox) : BoundingBox :=
  mkBoundingBox a (max b).
Definition set_max (a : vector_float3) (b : BoundingBox) : BoundingBox :=
  mkBoundingBox (min b) a.

Definition set_pointDensity (a : float) (q : QualityMetrics) : QualityMetrics :=
  mkQualityMetrics a (surfaceCompleteness q) (noiseLevel q)
    (featurePreservation q).
Definition set_surfaceCompleteness (a : float) (q : QualityMetrics)
  : QualityMetrics :=
  mkQualityMetrics (pointDensity q) a (noiseLevel q) (featurePreservation q).
Definition set_noiseLevel (a : float) (q : QualityMetrics) : QualityMetrics :=
  mkQualityMetrics (pointDensity q) (surfaceCompleteness q) a
    (featurePreservation q).
Definition set_featurePreservation (a : float) (q : QualityMetrics)
  : QualityMetrics :=
  mkQualityMetrics (pointDensity q) (surfaceCompleteness q) (noiseLevel q) a.

Definition set_spatialSigma (a : float) (p : ProcessingParameters)
  : ProcessingParameters :=
  mkProcessingParameters a (rangeSigma p) (confidenceThreshold p)
    (featureWeight p).
Definition set_rangeSigma (a : float) (p : ProcessingParameters)
  : ProcessingParameters :=
  mkProcessingParameters (spatialSigma p) a (confidenceThreshold p)
    (featureWeight p).
Definition set_confidenceThreshold (a : float) (p : ProcessingParameters)
  : ProcessingParameters :=
  mkProcessingParameters (spatialSigma p) (rangeSigma p) a (featureWeight p).
Definition set_featureWeight (a : float) (p : ProcessingParameters)
  : ProcessingParameters :=
  mkProcessingParameters (spatialSigma p) (rangeSigma p)
    (confidenceThreshold p) a.

(** ** The ordering of the corners of a bounding box

    The property the documentation expects of a box: on each axis the
    component of [min] is at most the component of [max], for the C
    comparison [<=].  The header has no code that establishes or checks it;
    it is stated here as a predicate on values, with its boolean test. *)

Definition vector_float3_le (a b : vector_float3) : bool :=
  float_le (x a) (x b) && float_le (y a) (y b) && float_le (z a) (z b).

Definition BoundingBox_ordered (b : BoundingBox) : Prop :=
  float_le (x (min b)) (x (max b)) = true /\
  float_le (y (min b)) (y (max b)) = true /\
  float_le (z (min b)) (z (max b)) = true.

Definition BoundingBox_orderedb (b : BoundingBox) : bool :=
  vector_float3_le (min b) (max b).

(** Two boxes used below: the unit box of the documentation's scenario and
    the same corners swapped. *)
Definition splat (a : float) : vector_float3 := mkvector_float3 a a a.

Definition unit_box : BoundingBox :=
  mkBoundingBox (splat float_zero) (splat float_one).

Definition swapped_box : BoundingBox :=
  mkBoundingBox (splat float_one) (splat float_zero).

(** * Properties *)

(** ** Floats *)

(** Bit identity decides equality of floats. *)
Lemma float_ext (a b : float) : float_bits a = float_bits b -> a = b.
Proof.
  destruct a as [na Ha], b as [nb Hb]; simpl; intros E.
  subst nb. f_equal. apply UIP_dec. apply bool_dec.
Qed.

Lemma float_bits_inj (a b : float) : a = b <-> float_bits a = float_bits b.
Proof.
  split; [intros ->; reflexivity | apply float_ext].
Qed.

Lemma float_eq_dec (a b : float) : {a = b} + {a <> b}.
Proof.
  destruct (Z.eq_dec (float_bits a) (float_bits b)) as [E | N].
  - left; apply float_ext; exact E.
  - right; intros E; apply N; rewrite E; reflexivity.
Defined.

Lemma float_bits_bound (f : float) : 0 <= float_bits f < 2 ^ 32.
Proof.
  destruct f as [n H]; simpl. unfold is_bits32, float_width in H.
  apply andb_prop in H; destruct H as [H1 H2].
  apply Z.leb_le in H1; apply Z.ltb_lt in H2; lia.
Qed.

Example float_decode_zero : float_decode float_zero = S754_zero false.
Proof. reflexivity. Qed.

Example float_decode_one :
  float_decode float_one = S754_finite false 8388608 (-23).
Proof. reflexivity. Qed.

Example float_decode_two :
  float_decode float_two = S754_finite false 8388608 (-22).
Proof. reflexivity. Qed.

Example float_decode_minus_one :
  float_decode float_minus_one = S754_finite true 8388608 (-23).
Proof. reflexivity. Qed.

Example float_decode_qnan : float_decode float_qnan = S754_nan.
Proof. reflexivity. Qed.

Example float_zero_le_one : float_le float_zero float_one = true.
Proof. reflexivity. Qed.

Example float_one_not_le_zero : float_le float_one float_zero = false.
Proof. reflexivity. Qed.

Example float_two_outside_unit : float_in_unit float_two = false.
Proof. reflexivity. Qed.

Example float_minus_one_outside_unit : float_in_unit float_minus_one = false.
Proof. reflexivity. Qed.

Example float_qnan_outside_unit : float_in_unit float_qnan = false.
Proof. reflexivity. Qed.

(** The bit fields are within their widths. *)
Lemma float_mantissa_bound (f : float) : 0 <= float_mantissa f < 2 ^ 23.
Proof.
  unfold float_mantissa.
  change (2 ^ 23 - 1) with (Z.ones 23).
  rewrite Z.land_ones by lia.
  apply Z.mod_pos_bound; lia.
Qed.

Lemma float_exponent_bound (f : float) : 0 <= float_exponent f < 256.
Proof.
  unfold float_exponent.
  change 255 with (Z.ones 8).
  rewrite Z.land_ones by lia.
  apply Z.mod_pos_bound; lia.
Qed.

Lemma digits2_pos_log2 (p : positive) :
  Zpos (digits2_pos p) = Z.log2 (Zpos p) + 1.
Proof.
  assert (S : forall q, digits2_pos q = Pos.size q)
    by (induction q as [q IH | q IH | ]; simpl; congruence).
  rewrite S. destruct p; simpl; lia.
Qed.

(** Decoding yields a float of the binary32 format (24 bits of precision,
    exponent of the infinities 128), on which the comparison of
    [spec_float] is the numeric one. *)
Lemma float_decode_valid (f : float) :
  valid_binary 24 128 (float_decode f) = true.
Proof.
  unfold float_decode.
  pose proof (float_mantissa_bound f) as Hm.
  pose proof (float_exponent_bound f) as He.
  destruct (Z.eqb_spec (float_exponent f) 255) as [E255 | N255].
  - destruct (float_mantissa f =? 0); reflexivity.
  - destruct (Z.eqb_spec (float_exponent f) 0) as [E0 | N0].
    + destruct (float_mantissa f) as [ | p | p] eqn:M; try reflexivity.
      unfold valid_binary, bounded, canonical_mantissa, fexp, emin.
      rewrite digits2_pos_log2.
      assert (Z.log2 (Zpos p) < 23) by (apply Z.log2_lt_pow2; lia).
      pose proof (Z.log2_nonneg (Zpos p)).
      apply andb_true_intro; split; [apply Z.eqb_eq | apply Z.leb_le]; lia.
    + destruct (float_mantissa f + 2 ^ 23) as [ | p | p] eqn:M; try reflexivity.
      unfold valid_binary, bounded, canonical_mantissa, fexp, emin.
      rewrite digits2_pos_log2.
      assert (Z.log2 (Zpos p) = 23) as ->
        by (apply Z.log2_unique; [lia | change (Z.succ 23) with 24; lia]).
      apply andb_true_intro; split; [apply Z.eqb_eq | apply Z.leb_le]; lia.
Qed.

(** [a <= a] holds of every float but the NaNs. *)
Lemma float_le_refl (a : float) : float_le a a = negb (float_is_nan a).
Proof.
  unfold float_le, float_is_nan, SFleb.
  destruct (float_decode a) as [s | s | | s m e]; simpl;
    try reflexivity; try (destruct s; reflexivity).
  destruct s; rewrite Z.compare_refl, Pos.compare_cont_refl; reflexivity.
Qed.

(** A NaN on either side makes [<=] false. *)
Lemma float_le_nan_l (a b : float) :
  float_is_nan a = true -> float_le a b = false.
Proof.
  unfold float_le, float_is_nan, SFleb.
  destruct (float_decode a); try discriminate. reflexivity.
Qed.

Lemma float_le_nan_r (a b : float) :
  float_is_nan b = true -> float_le a b = false.
Proof.
  unfold float_le, float_is_nan, SFleb.
  destruct (float_decode b); try discriminate.
  destruct (float_decode a); reflexivity.
Qed.

(** ** Vectors *)

Lemma vector_float3_eta (a : vector_float3) :
  mkvector_float3 (x a) (y a) (z a) = a.
Proof. destruct a; reflexivity. Qed.

Lemma vector_float3_eq_iff (a b : vector_float3) :
  a = b <-> x a = x b /\ y a = y b /\ z a = z b.
Proof.
  split.
  - intros ->; repeat split.
  - destruct a, b; simpl; intros (-> & -> & ->); reflexivity.
Qed.

(** Two vectors are equal exactly when their 96 bits agree. *)
Lemma vector_float3_eq_bits (a b : vector_float3) :
  a = b <->
  float_bits (x a) = float_bits (x b) /\
  float_bits (y a) = float_bits (y b) /\
  float_bits (z a) = float_bits (z b).
Proof.
  rewrite vector_float3_eq_iff.
  rewrite (float_bits_inj (x a)), (float_bits_inj (y a)), (float_bits_inj (z a)).
  reflexivity.
Qed.

Lemma vector_float3_eq_dec (a b : vector_float3) : {a = b} + {a <> b}.
Proof. decide equality; apply float_eq_dec. Defined.

Lemma ctype_eq_dec (s t : ctype) : {s = t} + {s <> t}.
Proof. decide equality. Defined.

Lemma vector_float3_le_spec (a b : vector_float3) :
  vector_float3_le a b = true <->
  float_le (x a) (x b) = true /\
  float_le (y a) (y b) = true /\
  float_le (z a) (z b) = true.
Proof.
  unfold vector_float3_le. rewrite !andb_true_iff. tauto.
Qed.

(** A vector is below itself exactly when none of its components is a NaN. *)
Lemma vector_float3_le_refl (a : vector_float3) :
  vector_float3_le a a =
  negb (float_is_nan (x a) || float_is_nan (y a) || float_is_nan (z a)).
Proof.
  unfold vector_float3_le. rewrite !float_le_refl, !negb_orb. reflexivity.
Qed.

(** ** Structures: decidable equality and the boolean test of the ordering *)

Lemma MeshVertex_eq_dec (v w : MeshVertex) : {v = w} + {v <> w}.
Proof.
  decide equality; first [apply float_eq_dec | apply vector_float3_eq_dec].
Defined.

Lemma BoundingBox_eq_dec (a b : BoundingBox) : {a = b} + {a <> b}.
Proof. decide equality; apply vector_float3_eq_dec. Defined.

Lemma QualityMetrics_eq_dec (p q : QualityMetrics) : {p = q} + {p <> q}.
Proof. decide equality; apply float_eq_dec. Defined.

Lemma ProcessingParameters_eq_dec (p q : ProcessingParameters) :
  {p = q} + {p <> q}.
Proof. decide equality; apply float_eq_dec. Defined.

Lemma BoundingBox_orderedb_spec (b : BoundingBox) :
  BoundingBox_orderedb b = true <-> BoundingBox_ordered b.
Proof.
  unfold BoundingBox_orderedb, BoundingBox_ordered.
  apply vector_float3_le_spec.
Qed.

Example unit_box_ordered : BoundingBox_orderedb unit_box = true.
Proof. reflexivity. Qed.

Example swapped_box_not_ordered : BoundingBox_orderedb swapped_box = false.
Proof. reflexivity. Qed.

(** A box reduced to one point is ordered exactly when the point has no
    NaN component: even [min = max] does not give the ordering for free. *)
Lemma point_box_ordered (p : vector_float3) :
  BoundingBox_orderedb (mkBoundingBox p p) =
  negb (float_is_nan (x p) || float_is_nan (y p) || float_is_nan (z p)).
Proof.
  unfold BoundingBox_orderedb; cbn [min max].
  apply vector_float3_le_refl.
Qed.

(** Swapping the corners of a box by two assignments. *)
Example swap_unit_box :
  set_max (splat float_zero) (set_min (splat float_one) unit_box) = swapped_box.
Proof. reflexivity. Qed.

(** * The structures against their declarations *)

Local Open Scope string_scope.

(** C1.  [MeshVertex] has exactly three fields, in this order and with
    these types: [position] and [normal], 3-component float vectors, and
    [confidence], a float.  The table of the declaration has these three
    rows, and a [MeshVertex] is neither more nor less than the tuple of
    values the table asks for: going from a value to its fields and back,
    or from a tuple of fields to the value and back, changes nothing. *)
Theorem MeshVertex_fields_exact :
  map field_name MeshVertex_decl = ["position"; "normal"; "confidence"] /\
  map field_type MeshVertex_decl = [Tvector_float3; Tvector_float3; Tfloat] /\
  List.length MeshVertex_decl = 3%nat /\
  (forall p n c, MeshVertex_fields (mkMeshVertex p n c) = (p, (n, (c, tt)))) /\
  (forall v, MeshVertex_of_fields (MeshVertex_fields v) = v) /\
  (forall t, MeshVertex_fields (MeshVertex_of_fields t) = t).
Proof.
  repeat split.
  - intros [p n c]; reflexivity.
  - intros (p & n & c & []); reflexivity.
Qed.

(** C2.  [BoundingBox] has exactly two fields, in this order and with these
    types: [min] and [max], both 3-component float vectors. *)
Theorem BoundingBox_fields_exact :
  map field_name BoundingBox_decl = ["min"; "max"] /\
  map field_type BoundingBox_decl = [Tvector_float3; Tvector_float3] /\
  List.length BoundingBox_decl = 2%nat /\
  (forall lo hi, BoundingBox_fields (mkBoundingBox lo hi) = (lo, (hi, tt))) /\
  (forall b, BoundingBox_of_fields (BoundingBox_fields b) = b) /\
  (forall t, BoundingBox_fields (BoundingBox_of_fields t) = t).
Proof.
  repeat split.
  - intros [lo hi]; reflexivity.
  - intros (lo & hi & []); reflexivity.
Qed.

(** C3.  [QualityMetrics] has exactly four fields, all floats, in this
    order: [pointDensity], [surfaceCompleteness], [noiseLevel],
    [featurePreservation]. *)
Theorem QualityMetrics_fields_exact :
  map field_name QualityMetrics_decl =
    ["pointDensity"; "surfaceCompleteness"; "noiseLevel";
     "featurePreservation"] /\
  map field_type QualityMetrics_decl = [Tfloat; Tfloat; Tfloat; Tfloat] /\
  List.length QualityMetrics_decl = 4%nat /\
  (forall d s n f,
     QualityMetrics_fields (mkQualityMetrics d s n f) = (d, (s, (n, (f, tt))))) /\
  (forall q, QualityMetrics_of_fields (QualityMetrics_fields q) = q) /\
  (forall t, QualityMetrics_fields (QualityMetrics_of_fields t) = t).
Proof.
  repeat split.
  - intros [d s n f]; reflexivity.
  - intros (d & s & n & f & []); reflexivity.
Qed.

(** C4.  [ProcessingParameters] has exactly four fields, all floats, in
    this order: [spatialSigma], [rangeSigma], [confidenceThreshold],
    [featureWeight]. *)
Theorem ProcessingParameters_fields_exact :
  map field_name ProcessingParameters_decl =
    ["spatialSigma"; "rangeSigma"; "confidenceThreshold"; "featureWeight"] /\
  map field_type ProcessingParameters_decl = [Tfloat; Tfloat; Tfloat; Tfloat] /\
  List.length ProcessingParameters_decl = 4%nat /\
  (forall s r c w,
     ProcessingParameters_fields (mkProcessingParameters s r c w) =
     (s, (r, (c, (w, tt))))) /\
  (forall p, ProcessingParameters_of_fields (ProcessingParameters_fields p) = p) /\
  (forall t, ProcessingParameters_fields (ProcessingParameters_of_fields t) = t).
Proof.
  repeat split.
  - intros [s r c w]; reflexivity.
  - intros (s & r & c & w & []); reflexivity.
Qed.

Local Close Scope string_scope.

(** C5.  Building any of the four structures from field values and reading
    each field back gives the values supplied, bit for bit; in the scenario
    of the documentation, the box built with [min = (0,0,0)] and
    [max = (1,1,1)] has [min.x = 0.0f] (bits [0x00000000]) and
    [max.x = 1.0f] (bits [0x3F800000]). *)
Theorem construct_project_roundtrip :
  (forall p n c,
     position (mkMeshVertex p n c) = p /\
     normal (mkMeshVertex p n c) = n /\
     confidence (mkMeshVertex p n c) = c /\
     float_bits (confidence (mkMeshVertex p n c)) = float_bits c) /\
  (forall lo hi,
     min (mkBoundingBox lo hi) = lo /\
     max (mkBoundingBox lo hi) = hi) /\
  (forall d s n f,
     pointDensity (mkQualityMetrics d s n f) = d /\
     surfaceCompleteness (mkQualityMetrics d s n f) = s /\
     noiseLevel (mkQualityMetrics d s n f) = n /\
     featurePreservation (mkQualityMetrics d s n f) = f) /\
  (forall s r c w,
     spatialSigma (mkProcessingParameters s r c w) = s /\
     rangeSigma (mkProcessingParameters s r c w) = r /\
     confidenceThreshold (mkProcessingParameters s r c w) = c /\
     featureWeight (mkProcessingParameters s r c w) = w) /\
  (forall a b c,
     x (mkvector_float3 a b c) = a /\
     y (mkvector_float3 a b c) = b /\
     z (mkvector_float3 a b c) = c) /\
  x (min unit_box) = float_zero /\
  x (max unit_box) = float_one /\
  float_bits (x (min unit_box)) = 0x00000000 /\
  float_bits (x (max unit_box)) = 0x3F800000 /\
  float_decode (x (min unit_box)) = S754_zero false /\
  float_decode (x (max unit_box)) = S754_finite false 8388608 (-23).
Proof.
  repeat split.
Qed.

(** * The ordering of a bounding box is not carried by the type *)

(** C6, as stated, fails: not every value of type [BoundingBox] has its
    [min] below its [max].  The box with corners [(1,1,1)] and [(0,0,0)] is
    a value of the type and has [min.x > max.x]. *)
Lemma BoundingBox_ordered_not_universal :
  ~ (forall b : BoundingBox, BoundingBox_ordered b).
Proof.
  intros H. destruct (H swapped_box) as [Hx _].
  vm_compute in Hx. discriminate Hx.
Qed.

(** C6, amended.  The structure stores the corners it is given and checks
    nothing: a box built from corners that are ordered on each axis has each
    component of its [min] at most the corresponding component of its
    [max]. *)
Theorem BoundingBox_ordered_of_corners (lo hi : vector_float3) :
  float_le (x lo) (x hi) = true ->
  float_le (y lo) (y hi) = true ->
  float_le (z lo) (z hi) = true ->
  float_le (x (min (mkBoundingBox lo hi))) (x (max (mkBoundingBox lo hi))) = true /\
  float_le (y (min (mkBoundingBox lo hi))) (y (max (mkBoundingBox lo hi))) = true /\
  float_le (z (min (mkBoundingBox lo hi))) (z (max (mkBoundingBox lo hi))) = true.
Proof.
  intros Hx Hy Hz. cbn [min max]. repeat split; assumption.
Qed.

Lemma BoundingBox_ordered_of_corners_witness :
  float_le (x (min unit_box)) (x (max unit_box)) = true /\
  float_le (y (min unit_box)) (y (max unit_box)) = true /\
  float_le (z (min unit_box)) (z (max unit_box)) = true.
Proof.
  apply (BoundingBox_ordered_of_corners (splat float_zero) (splat float_one));
    reflexivity.
Defined.

(** * Construction never fails and validates nothing *)

(** C7.  Every choice of field values gives a value of each structure, with
    exactly those fields: the initialiser is a total function into the
    structure (no error result), and the confidence read back from a vertex
    is the one supplied, whatever it is.  In particular [2.0f], [-1.0f] and
    a NaN, all outside [0,1], are stored unchanged. *)
Theorem construction_total :
  (forall p n c, exists v : MeshVertex,
     v = mkMeshVertex p n c /\
     position v = p /\ normal v = n /\ confidence v = c) /\
  (forall lo hi, exists b : BoundingBox,
     b = mkBoundingBox lo hi /\ min b = lo /\ max b = hi) /\
  (forall d s n f, exists q : QualityMetrics,
     q = mkQualityMetrics d s n f /\
     pointDensity q = d /\ surfaceCompleteness q = s /\
     noiseLevel q = n /\ featurePreservation q = f) /\
  (forall s r c w, exists p : ProcessingParameters,
     p = mkProcessingParameters s r c w /\
     spatialSigma p = s /\ rangeSigma p = r /\
     confidenceThreshold p = c /\ featureWeight p = w) /\
  (forall p n c, confidence (mkMeshVertex p n c) = c) /\
  (forall p n,
     float_in_unit float_two = false /\
     confidence (mkMeshVertex p n float_two) = float_two) /\
  (forall p n,
     float_in_unit float_minus_one = false /\
     confidence (mkMeshVertex p n float_minus_one) = float_minus_one) /\
  (forall p n,
     float_in_unit float_qnan = false /\
     confidence (mkMeshVertex p n float_qnan) = float_qnan).
Proof.
  repeat split; intros; try reflexivity;
    eexists; repeat split; reflexivity.
Qed.

(** * Assignment to a field leaves the other fields alone *)

(** C9.  In each of the four structures, writing one field sets that field
    to the value written and leaves every other field as it was. *)
Theorem field_update_frame :
  (forall a v,
     position (set_position a v) = a /\
     normal (set_position a v) = normal v /\
     confidence (set_position a v) = confidence v) /\
  (forall a v,
     position (set_normal a v) = position v /\
     normal (set_normal a v) = a /\
     confidence (set_normal a v) = confidence v) /\
  (forall a v,
     position (set_confidence a v) = position v /\
     normal (set_confidence a v) = normal v /\
     confidence (set_confidence a v) = a) /\
  (forall a b, min (set_min a b) = a /\ max (set_min a b) = max b) /\
  (forall a b, min (set_max a b) = min b /\ max (set_max a b) = a) /\
  (forall a q,
     pointDensity (set_pointDensity a q) = a /\
     surfaceCompleteness (set_pointDensity a q) = surfaceCompleteness q /\
     noiseLevel (set_pointDensity a q) = noiseLevel q /\
     featurePreservation (set_pointDensity a q) = featurePreservation q) /\
  (forall a q,
     pointDensity (set_surfaceCompleteness a q) = pointDensity q /\
     surfaceCompleteness (set_surfaceCompleteness a q) = a /\
     noiseLevel (set_surfaceCompleteness a q) = noiseLevel q /\
     featurePreservation (set_surfaceCompleteness a q) = featurePreservation q) /\
  (forall a q,
     pointDensity (set_noiseLevel a q) = pointDensity q /\
     surfaceCompleteness (set_noiseLevel a q) = surfaceCompleteness q /\
     noiseLevel (set_noiseLevel a q) = a /\
     featurePreservation (set_noiseLevel a q) = featurePreservation q) /\
  (forall a q,
     pointDensity (set_featurePreservation a q) = pointDensity q /\
     surfaceCompleteness (set_featurePreservation a q) = surfaceCompleteness q /\
     noiseLevel (set_featurePreservation a q) = noiseLevel q /\
     featurePreservation (set_featurePreservation a q) = a) /\
  (forall a p,
     spatialSigma (set_spatialSigma a p) = a /\
     rangeSigma (set_spatialSigma a p) = rangeSigma p /\
     confidenceThreshold (set_spatialSigma a p) = confidenceThreshold p /\
     featureWeight (set_spatialSigma a p) = featureWeight p) /\
  (forall a p,
     spatialSigma (set_rangeSigma a p) = spatialSigma p /\
     rangeSigma (set_rangeSigma a p) = a /\
     confidenceThreshold (set_rangeSigma a p) = confidenceThreshold p /\
     featureWeight (set_rangeSigma a p) = featureWeight p) /\
  (forall a p,
     spatialSigma (set_confidenceThreshold a p) = spatialSigma p /\
     rangeSigma (set_confidenceThreshold a p) = rangeSigma p /\
     confidenceThreshold (set_confidenceThreshold a p) = a /\
     featureWeight (set_confidenceThreshold a p) = featureWeight p) /\
  (forall a p,
     spatialSigma (set_featureWeight a p) = spatialSigma p /\
     rangeSigma (set_featureWeight a p) = rangeSigma p /\
     confidenceThreshold (set_featureWeight a p) = confidenceThreshold p /\
     featureWeight (set_featureWeight a p) = a).
Proof.
  repeat split.
Qed.

(** * Equality of structures is equality of their fields *)

(** C10.  Two values of the same structure are equal if and only if all
    their corresponding fields are equal: a value holds nothing beyond its
    declared fields. *)
Theorem struct_eq_iff_fields :
  (forall v w : MeshVertex,
     v = w <->
     position v = position w /\ normal v = normal w /\
     confidence v = confidence w) /\
  (forall a b : BoundingBox,
     a = b <-> min a = min b /\ max a = max b) /\
  (forall p q : QualityMetrics,
     p = q <->
     pointDensity p = pointDensity q /\
     surfaceCompleteness p = surfaceCompleteness q /\
     noiseLevel p = noiseLevel q /\
     featurePreservation p = featurePreservation q) /\
  (forall p q : ProcessingParameters,
     p = q <->
     spatialSigma p = spatialSigma q /\
     rangeSigma p = rangeSigma q /\
     confidenceThreshold p = confidenceThreshold q /\
     featureWeight p = featureWeight q).
Proof.
  split; [ | split; [ | split]].
  - intros v w; split.
    + intros ->; repeat split.
    + destruct v, w; cbn; intros (-> & -> & ->); reflexivity.
  - intros a b; split.
    + intros ->; repeat split.
    + destruct a, b; cbn; intros (-> & ->); reflexivity.
  - intros p q; split.
    + intros ->; repeat split.
    + destruct p, q; cbn; intros (-> & -> & -> & ->); reflexivity.
  - intros p q; split.
    + intros ->; repeat split.
    + destruct p, q; cbn; intros (-> & -> & -> & ->); reflexivity.
Qed.

(** * How assignments to fields compose

    The structures are plain [struct]s: no [union], no bit-field, no field
    overlapping another.  The laws below are what that gives to code that
    fills or edits a value one field at a time. *)




